(** * sqlproxyccl: the backend dialer

    A shallow embedding of [pkg/ccl/sqlproxyccl/backend_dialer.go]:
    [BackendDial], [sslOverlay] and [relayStartupMsg], over an explicit
    model of the Go objects they manipulate (transport connections, TLS
    client wrappers, TLS configurations) and of the remote peer.

    Go's [net.Conn] is an interface value: it is nil, a transport
    connection or a TLS wrapper around another connection.  Go's [error]
    is [option error], nil being [None].  A Go function either returns or
    panics; a deferred function runs when the function returns. *)

From Stdlib Require Import ZArith Lia String.
From stdpp Require Import base list.

Open Scope string_scope.
Open Scope Z_scope.
Open Scope list_scope.

(** ** Bytes and the big-endian encoding of [encoding/binary] *)

(** A byte is an integer in [0, 256). *)
Definition byte := Z.

(** [binary.BigEndian.PutUint32]: the four bytes of a 32-bit value, most
    significant first. *)
Definition BigEndian_PutUint32 (v : Z) : list byte :=
  [ Z.land (Z.shiftr v 24) 255;
    Z.land (Z.shiftr v 16) 255;
    Z.land (Z.shiftr v 8) 255;
    Z.land v 255 ].

(** [binary.BigEndian.Uint32]: the value of four bytes read most significant
    first. *)
Definition BigEndian_Uint32 (bs : list byte) : Z :=
  match bs with
  | [b0; b1; b2; b3] =>
      Z.lor (Z.lor (Z.lor (Z.shiftl b0 24) (Z.shiftl b1 16)) (Z.shiftl b2 8)) b3
  | _ => 0
  end.

(** [time.Second], in nanoseconds as [time.Duration] counts. *)
Definition Second : Z := 1000000000.

(** ** Errors *)

(** Modelled from the spec: the error codes of the package are declared
    outside this file; the two that the dialer uses are the spec's
    [BackendUnreachable] ([codeBackendDown]) and [BackendRefusedTLS]
    ([codeBackendRefusedTLS]). *)
Inductive errorCode : Type :=
| codeBackendDown
| codeBackendRefusedTLS.

(** An error is either one produced by a library ([net], [io],
    [crypto/tls]) or a coded error of the proxy.  A coded error keeps its
    format string and the arguments it was built from. *)
Inductive error : Type :=
| LibError (detail : string)
| CodeError (code : errorCode) (format : string) (args : list fmtArg)
with fmtArg : Type :=
| ArgString (s : string)
| ArgError (e : error).

(** Modelled from the spec: [newErrorf] is declared outside this file; it
    builds the coded error from a code, a format and its arguments. *)
Definition newErrorf (code : errorCode) (format : string) (args : list fmtArg) : error :=
  CodeError code format args.

Definition code_of (e : error) : option errorCode :=
  match e with
  | LibError _ => None
  | CodeError c _ _ => Some c
  end.

(** The error [e] was passed as an argument when [err] was built. *)
Definition carries (err e : error) : Prop :=
  match err with
  | LibError _ => False
  | CodeError _ _ args => ArgError e ∈ args
  end.

Definition io_EOF : error := LibError "EOF".
Definition io_ErrUnexpectedEOF : error := LibError "unexpected EOF".

(** ** Connections and the world *)

(** A [net.Conn] interface value. *)
Inductive Conn : Type :=
| ConnNil
| ConnTCP (id : nat)
| ConnTLS (id : nat).

(** What the remote end of a transport connection will do: the outcome of
    each successive write on the transport, the bytes it will send and the
    error that ends its stream ([io.EOF] when it closes the connection), and
    the outcome of a TLS client handshake on this transport. *)
Record Peer : Type := mkPeer {
  peer_wr : list (option error);
  peer_in : list byte;
  peer_in_end : error;
  peer_hs : option error
}.

(** A transport connection: the remaining behaviour of its peer, the bytes
    written to it in the clear, and how many times it has been closed. *)
Record TCPConn : Type := mkTCP {
  tcp_peer : Peer;
  tcp_out : list byte;
  tcp_closed : nat
}.

Inductive HsState : Type :=
| HsPending
| HsDone
| HsFailed (e : error).

(** The outcome of [net.DialTimeout]. *)
Inductive DialOutcome : Type :=
| DialFail (e : error)
| DialOk (p : Peer).

(** An invocation recorded in the world's log, in the order of the calls.
    A method call is recorded with its receiver, also when the receiver is
    nil. *)
Inductive Event : Type :=
| EvDial (network address : string) (timeout : Z)
| EvWrite (c : Conn) (data : list byte)
| EvReadFull (c : Conn) (len : nat)
| EvClose (c : Conn)
| EvClone (cfg : option nat)
| EvTLSClient (c : Conn) (cfg : option nat).

(** A Go call returns, panics, or leaves the model ([Stuck]: a handle that
    names no object, or a TLS wrapper around something else than a
    transport). *)
Inductive Result (A : Type) : Type :=
| Ret (a : A)
| Panic (msg : string)
| Stuck.
Arguments Ret {A} a.
Arguments Panic {A} msg.
Arguments Stuck {A}.

Definition nil_dereference : string :=
  "invalid memory address or nil pointer dereference".
Definition index_out_of_range : string := "index out of range".

(** A TLS client wrapper, as [tls.Client] makes it: the connection under
    it, its configuration, the state of its handshake, and the bytes written
    through it. *)
Record TLSConn : Type := mkTLS {
  tls_under : Conn;
  tls_cfg : option nat;
  tls_hs : HsState;
  tls_out : list byte
}.

(** What the dialer takes from outside this file.

    [*tls.Config] points into a store of configurations whose contents are
    opaque; [handshake_touch] is what a client handshake does to the
    configuration it was given.  [StartupMessage] and [Encode] are
    [pgproto3.StartupMessage] and its encoder.

    Modelled from the spec: [pgSSLRequest] and [pgAcceptSSLRequest] are
    declared outside this file.  The spec gives the request as one magic
    numeric code of 4 bytes and the accept code as one byte value. *)
Class DialerEnv : Type := {
  Config : Type;
  handshake_touch : Config -> Config;
  StartupMessage : Type;
  Encode : StartupMessage -> list byte;
  pgSSLRequest : Z;
  pgAcceptSSLRequest : byte
}.

Section Dialer.

Context `{DialerEnv}.

Record World : Type := mkWorld {
  net : string -> Z -> DialOutcome;
  tcps : list TCPConn;
  tlss : list TLSConn;
  configs : list Config;
  log : list Event
}.

(** *** The monad of Go calls *)

Definition Go (A : Type) : Type := World -> Result A * World.

Definition ret {A} (a : A) : Go A := fun w => (Ret a, w).

Definition panic {A} (msg : string) : Go A := fun w => (Panic msg, w).

Definition stuck {A} : Go A := fun w => (Stuck, w).

Definition bind {A B} (m : Go A) (k : A -> Go B) : Go B :=
  fun w =>
    match m w with
    | (Ret a, w') => k a w'
    | (Panic s, w') => (Panic s, w')
    | (Stuck, w') => (Stuck, w')
    end.

Notation "x <- m ;; k" := (bind m (fun x => k))
  (at level 100, m at next level, right associativity).
#[warnings="-notation-incompatible-prefix"]
Notation "' pat <- m ;; k" := (bind m (fun x => match x with pat => k end))
  (at level 100, pat pattern, m at next level, right associativity).
Notation "m ;;; k" := (bind m (fun _ => k))
  (at level 100, right associativity).

Definition record (ev : Event) : Go unit :=
  fun w => (Ret tt, mkWorld (net w) (tcps w) (tlss w) (configs w) (log w ++ [ev])).

Definition set_tcp (i : nat) (t : TCPConn) : Go unit :=
  fun w => (Ret tt, mkWorld (net w) (<[i := t]> (tcps w)) (tlss w) (configs w) (log w)).

Definition set_tls (j : nat) (t : TLSConn) : Go unit :=
  fun w => (Ret tt, mkWorld (net w) (tcps w) (<[j := t]> (tlss w)) (configs w) (log w)).

Definition get_tcp (i : nat) : Go TCPConn :=
  fun w => match tcps w !! i with
           | Some t => (Ret t, w)
           | None => (Stuck, w)
           end.

Definition get_tls (j : nat) : Go TLSConn :=
  fun w => match tlss w !! j with
           | Some t => (Ret t, w)
           | None => (Stuck, w)
           end.

(** The handshake works on the configuration [cfg] points to. *)
Definition touch_config (cfg : option nat) : Go unit :=
  fun w =>
    (Ret tt,
     mkWorld (net w) (tcps w) (tlss w)
       (match cfg with
        | Some q => alter handshake_touch q (configs w)
        | None => configs w
        end)
       (log w)).

(** *** The library calls the dialer makes *)

(** [net.DialTimeout]: the network decides; on success a new transport
    connection exists, open and with nothing written. *)
Definition net_DialTimeout (network address : string) (timeout : Z)
  : Go (Conn * option error) :=
  record (EvDial network address timeout) ;;;
  fun w =>
    match net w address timeout with
    | DialFail e => (Ret (ConnNil, Some e), w)
    | DialOk p =>
        (Ret (ConnTCP (length (tcps w)), None),
         mkWorld (net w) (tcps w ++ [mkTCP p [] 0]) (tlss w) (configs w) (log w))
    end.

(** The next write outcome of a peer, and the peer after it. *)
Definition next_write (p : Peer) : option error * Peer :=
  match peer_wr p with
  | [] => (None, p)
  | o :: rest => (o, mkPeer rest (peer_in p) (peer_in_end p) (peer_hs p))
  end.

(** A write on the transport [i]; [clear] says whether the bytes travel in
    the clear (they do not under TLS). *)
Definition transport_write (i : nat) (clear : bool) (data : list byte)
  : Go (option error) :=
  t <- get_tcp i ;;
  let '(o, p) := next_write (tcp_peer t) in
  match o with
  | Some e => set_tcp i (mkTCP p (tcp_out t) (tcp_closed t)) ;;; ret (Some e)
  | None =>
      set_tcp i (mkTCP p (if clear then tcp_out t ++ data else tcp_out t)
                       (tcp_closed t)) ;;;
      ret None
  end.

(** [Handshake] of a [tls.Conn]: runs the handshake the first time it is
    called, on the wrapper's configuration; its outcome is kept. *)
Definition tls_Handshake (j : nat) : Go (option error) :=
  t <- get_tls j ;;
  match tls_hs t with
  | HsDone => ret None
  | HsFailed e => ret (Some e)
  | HsPending =>
      match tls_under t with
      | ConnNil => panic nil_dereference
      | ConnTLS _ => stuck
      | ConnTCP i =>
          tc <- get_tcp i ;;
          touch_config (tls_cfg t) ;;;
          match peer_hs (tcp_peer tc) with
          | Some e =>
              set_tls j (mkTLS (tls_under t) (tls_cfg t) (HsFailed e) (tls_out t)) ;;;
              ret (Some e)
          | None =>
              set_tls j (mkTLS (tls_under t) (tls_cfg t) HsDone (tls_out t)) ;;;
              ret None
          end
      end
  end.

(** [conn.Write(data)], the error it returns. *)
Definition Conn_Write (c : Conn) (data : list byte) : Go (option error) :=
  record (EvWrite c data) ;;;
  match c with
  | ConnNil => panic nil_dereference
  | ConnTCP i => transport_write i true data
  | ConnTLS j =>
      herr <- tls_Handshake j ;;
      match herr with
      | Some e => ret (Some e)
      | None =>
          t <- get_tls j ;;
          match tls_under t with
          | ConnTCP i =>
              err <- transport_write i false data ;;
              match err with
              | Some e => ret (Some e)
              | None =>
                  set_tls j (mkTLS (tls_under t) (tls_cfg t) (tls_hs t)
                                   (tls_out t ++ data)) ;;;
                  ret None
              end
          | ConnNil => panic nil_dereference
          | ConnTLS _ => stuck
          end
      end
  end.

(** [conn.Close()].  Closing a TLS wrapper closes the transport under it. *)
Definition transport_close (i : nat) : Go (option error) :=
  t <- get_tcp i ;;
  set_tcp i (mkTCP (tcp_peer t) (tcp_out t) (S (tcp_closed t))) ;;;
  ret None.

Definition Conn_Close (c : Conn) : Go (option error) :=
  record (EvClose c) ;;;
  match c with
  | ConnNil => panic nil_dereference
  | ConnTCP i => transport_close i
  | ConnTLS j =>
      t <- get_tls j ;;
      match tls_under t with
      | ConnTCP i => transport_close i
      | ConnNil => panic nil_dereference
      | ConnTLS _ => stuck
      end
  end.

(** Reading [n] bytes from the stream of the transport [i], as
    [io.ReadFull] does: all [n] bytes, or the bytes there are with an
    error, [io.EOF] only if no byte was read. *)
Definition transport_read_full (i : nat) (n : nat) : Go (list byte * option error) :=
  t <- get_tcp i ;;
  let p := tcp_peer t in
  if (n <=? length (peer_in p))%nat then
    set_tcp i (mkTCP (mkPeer (peer_wr p) (drop n (peer_in p)) (peer_in_end p) (peer_hs p))
                     (tcp_out t) (tcp_closed t)) ;;;
    ret (take n (peer_in p), None)
  else
    set_tcp i (mkTCP (mkPeer (peer_wr p) [] (peer_in_end p) (peer_hs p))
                     (tcp_out t) (tcp_closed t)) ;;;
    ret (peer_in p,
         Some (match peer_in p, peer_in_end p with
               | _ :: _, LibError "EOF" => io_ErrUnexpectedEOF
               | _, e => e
               end)).

(** [io.ReadFull(conn, buf)]: the buffer afterwards and the error. *)
Definition io_ReadFull (c : Conn) (buf : list byte) : Go (list byte * option error) :=
  record (EvReadFull c (length buf)) ;;;
  match c with
  | ConnNil => panic nil_dereference
  | ConnTCP i =>
      '(got, err) <- transport_read_full i (length buf) ;;
      ret (got ++ drop (length got) buf, err)
  | ConnTLS j =>
      herr <- tls_Handshake j ;;
      match herr with
      | Some e => ret (buf, Some e)
      | None =>
          t <- get_tls j ;;
          match tls_under t with
          | ConnTCP i =>
              '(got, err) <- transport_read_full i (length buf) ;;
              ret (got ++ drop (length got) buf, err)
          | ConnNil => panic nil_dereference
          | ConnTLS _ => stuck
          end
      end
  end.

(** [binary.Write(conn, binary.BigEndian, v)] for a 32-bit [v]: one write
    of its encoding. *)
Definition binary_Write_BigEndian (c : Conn) (v : Z) : Go (option error) :=
  Conn_Write c (BigEndian_PutUint32 v).

(** [make([]byte, n)]. *)
Definition make_bytes (n : nat) : list byte := replicate n 0.

(** [buf[k]]. *)
Definition index (buf : list byte) (k : nat) : Go byte :=
  match buf !! k with
  | Some b => ret b
  | None => panic index_out_of_range
  end.

(** [cfg.Clone()]: nil for nil, else a new configuration with the same
    contents. *)
Definition Config_Clone (cfg : option nat) : Go (option nat) :=
  record (EvClone cfg) ;;;
  match cfg with
  | None => ret None
  | Some p =>
      fun w =>
        match configs w !! p with
        | None => (Stuck, w)
        | Some c =>
            (Ret (Some (length (configs w))),
             mkWorld (net w) (tcps w) (tlss w) (configs w ++ [c]) (log w))
        end
  end.

(** [tls.Client(conn, cfg)]: a new wrapper; no handshake is run. *)
Definition tls_Client (c : Conn) (cfg : option nat) : Go Conn :=
  record (EvTLSClient c cfg) ;;;
  fun w =>
    (Ret (ConnTLS (length (tlss w))),
     mkWorld (net w) (tcps w) (tlss w ++ [mkTLS c cfg HsPending []]) (configs w) (log w)).

(** *** The dialer *)

(** [sslOverlay] attempts to upgrade the connection to TLS if a
    configuration is given. *)
Definition sslOverlay (conn : Conn) (tlsConfig : option nat)
  : Go (Conn * option error) :=
  match tlsConfig with
  | None => ret (conn, None)
  | Some _ =>
      err <- binary_Write_BigEndian conn pgSSLRequest ;;
      match err with
      | Some e =>
          ret (ConnNil,
               Some (newErrorf codeBackendDown
                       "sending SSLRequest to target server: %v" [ArgError e]))
      | None =>
          let response := make_bytes 1 in
          '(response, err) <- io_ReadFull conn response ;;
          match err with
          | Some _ =>
              ret (ConnNil,
                   Some (newErrorf codeBackendDown "reading response to SSLRequest" []))
          | None =>
              r0 <- index response 0 ;;
              if negb (r0 =? pgAcceptSSLRequest) then
                ret (ConnNil,
                     Some (newErrorf codeBackendRefusedTLS
                             "target server refused TLS connection" []))
              else
                outCfg <- Config_Clone tlsConfig ;;
                c <- tls_Client conn outCfg ;;
                ret (c, None)
          end
      end
  end.

(** [relayStartupMsg] forwards the start message on the connection. *)
Definition relayStartupMsg (conn : Conn) (msg : StartupMessage) : Go (option error) :=
  Conn_Write conn (Encode msg).

(** The function [BackendDial] defers: it reads the variable [conn] and the
    named result [retErr] as they are when [BackendDial] returns. *)
Definition BackendDial_deferred (conn : Conn) (retErr : option error) : Go unit :=
  match retErr with
  | Some _ => Conn_Close conn ;;; ret tt
  | None => ret tt
  end.

(** The statements of [BackendDial] after the [defer]: the value of the
    variable [conn] at the return, and the results returned. *)
Definition BackendDial_body (conn : Conn) (msg : StartupMessage)
    (serverAddress : string) (tlsConfig : option nat)
  : Go (Conn * (Conn * option error)) :=
  '(conn, err) <- sslOverlay conn tlsConfig ;;
  match err with
  | Some e => ret (conn, (ConnNil, Some e))
  | None =>
      err <- relayStartupMsg conn msg ;;
      match err with
      | Some e =>
          ret (conn,
               (ConnNil,
                Some (newErrorf codeBackendDown
                        "relaying StartupMessage to target server %v: %v"
                        [ArgString serverAddress; ArgError e])))
      | None => ret (conn, (conn, None))
      end
  end.

(** [BackendDial]: dial, overlay TLS, relay the start message.  When the
    body panics [retErr] is still nil, so the deferred function does
    nothing and the panic goes on; when the deferred function panics, so
    does [BackendDial]. *)
Definition BackendDial (msg : StartupMessage) (serverAddress : string)
    (tlsConfig : option nat) : Go (Conn * option error) :=
  '(conn, err) <- net_DialTimeout "tcp" serverAddress (Second * 5) ;;
  match err with
  | Some e =>
      ret (ConnNil,
           Some (newErrorf codeBackendDown
                   "unable to reach backend SQL server: %v" [ArgError e]))
  | None =>
      '(conn, (result, retErr)) <- BackendDial_body conn msg serverAddress tlsConfig ;;
      BackendDial_deferred conn retErr ;;;
      ret (result, retErr)
  end.

(** *** Observations on a world *)

(** The transport that carries the connection [c]. *)
Definition transport_of (w : World) (c : Conn) : option nat :=
  match c with
  | ConnNil => None
  | ConnTCP i => Some i
  | ConnTLS j =>
      match tls_under <$> (tlss w !! j) with
      | Some (ConnTCP i) => Some i
      | _ => None
      end
  end.

(** How many times the transport [i] has been closed. *)
Definition closes (w : World) (i : nat) : option nat :=
  tcp_closed <$> (tcps w !! i).

(** How many times the transport of the connection [c] has been closed;
    the connection is open when this is [Some 0]. *)
Definition closed_count (w : World) (c : Conn) : option nat :=
  match transport_of w c with
  | Some i => closes w i
  | None => None
  end.

(** The bytes written through the connection [c] so far. *)
Definition written (w : World) (c : Conn) : option (list byte) :=
  match c with
  | ConnNil => None
  | ConnTCP i => tcp_out <$> (tcps w !! i)
  | ConnTLS j => tls_out <$> (tlss w !! j)
  end.

Definition is_dial (ev : Event) : bool :=
  match ev with EvDial _ _ _ => true | _ => false end.

Definition is_close (ev : Event) : bool :=
  match ev with EvClose _ => true | _ => false end.

Definition is_write (ev : Event) : bool :=
  match ev with EvWrite _ _ => true | _ => false end.

Definition is_read (ev : Event) : bool :=
  match ev with EvReadFull _ _ => true | _ => false end.

End Dialer.

Arguments get_tcp : simpl never.
Arguments set_tcp : simpl never.
Arguments get_tls : simpl never.
Arguments set_tls : simpl never.
Arguments touch_config : simpl never.
Arguments BigEndian_PutUint32 : simpl never.

(** ** A sample environment and sample worlds *)

Module Sample.

(** Configurations are counters that a handshake increments; a start message
    is its own encoding; the request code and the accept byte are those of
    the PostgreSQL protocol. *)
Definition env : DialerEnv :=
  {| Config := nat;
     handshake_touch := S;
     StartupMessage := list byte;
     Encode := fun m => m;
     pgSSLRequest := 80877103;
     pgAcceptSSLRequest := 83 |}.

Definition payload : list byte := [0; 0; 0; 8; 4; 210; 22; 47].

Definition address : string := "127.0.0.1:5432".

(** A world with no connection and one configuration, where every dial
    reaches the peer [p]. *)
Definition world (p : Peer) : @World env :=
  @mkWorld env (fun _ _ => DialOk p) [] [] [7%nat] [].

(** A world where every dial fails. *)
Definition dead_world : @World env :=
  @mkWorld env (fun _ _ => DialFail (LibError "i/o timeout")) [] [] [7%nat] [].

Definition accepting : Peer := mkPeer [] [83] io_EOF None.
Definition refusing : Peer := mkPeer [] [78] io_EOF None.
Definition hanging_up : Peer := mkPeer [] [] io_EOF None.
Definition not_writable : Peer := mkPeer [Some (LibError "broken pipe")] [] io_EOF None.
Definition x509_error : error :=
  LibError "x509: certificate signed by unknown authority".
Definition bad_handshake : Peer := mkPeer [] [83] io_EOF (Some x509_error).

(** A world that already holds an open transport to an accepting peer. *)
Definition connected : @World env :=
  @mkWorld env (fun _ _ => DialOk accepting) [mkTCP accepting [] 0] [] [7%nat] [].

(** A peer that accepts TLS and then breaks the connection under the relay. *)
Definition relay_broken : Peer :=
  mkPeer [None; Some (LibError "broken pipe")] [83] io_EOF None.

(** A world that already holds an open transport to the peer [p]. *)
Definition connected_to (p : Peer) : @World env :=
  @mkWorld env (fun _ _ => DialOk p) [mkTCP p [] 0] [] [7%nat] [].

(** A call to [BackendDial] on the peer [p], with the configuration [cfg]. *)
Definition dial (cfg : option nat) (p : Peer) : Result (Conn * option error) * @World env :=
  @BackendDial env payload address cfg (world p).

(** The world of that call once it has dialed, and what [sslOverlay] does
    there with the caller's configuration. *)
Definition dialed (p : Peer) : @World env :=
  snd (@net_DialTimeout env "tcp" address (Second * 5) (world p)).

Definition overlaid (p : Peer) : Result (Conn * option error) * @World env :=
  @sslOverlay env (ConnTCP 0) (Some 0%nat) (dialed p).

End Sample.

(** ** Properties *)

Section DialerProofs.

Context `{DialerEnv}.

(** *** Objects in a store *)

Lemma lookup_middle {A} (l l' : list A) (x : A) : (l ++ x :: l') !! length l = Some x.
Proof. by apply list_lookup_middle. Qed.

Lemma insert_middle {A} (l l' : list A) (x y : A) :
  <[length l := y]> (l ++ x :: l') = l ++ y :: l'.
Proof. induction l as [|a l IH]; simpl; [done | f_equal; exact IH]. Qed.

Lemma alter_last {A} (f : A -> A) (l : list A) (x : A) :
  alter f (length l) (l ++ [x]) = l ++ [f x].
Proof. induction l as [|a l IH]; simpl; [done | f_equal; exact IH]. Qed.

Lemma get_tcp_at N T t T' L C G :
  get_tcp (length T) (mkWorld N (T ++ t :: T') L C G)
  = (Ret t, mkWorld N (T ++ t :: T') L C G).
Proof. unfold get_tcp; simpl. by rewrite lookup_middle. Qed.

Lemma set_tcp_at N T t t' T' L C G :
  set_tcp (length T) t' (mkWorld N (T ++ t :: T') L C G)
  = (Ret tt, mkWorld N (T ++ t' :: T') L C G).
Proof. unfold set_tcp; simpl. by rewrite insert_middle. Qed.

Lemma get_tls_last N T L t C G :
  get_tls (length L) (mkWorld N T (L ++ [t]) C G) = (Ret t, mkWorld N T (L ++ [t]) C G).
Proof. unfold get_tls; simpl. by rewrite lookup_middle. Qed.

Lemma set_tls_last N T L t t' C G :
  set_tls (length L) t' (mkWorld N T (L ++ [t]) C G) = (Ret tt, mkWorld N T (L ++ [t']) C G).
Proof. unfold set_tls; simpl. by rewrite insert_middle. Qed.

Lemma touch_config_last N T L C c G :
  touch_config (Some (length C)) (mkWorld N T L (C ++ [c]) G)
  = (Ret tt, mkWorld N T L (C ++ [handshake_touch c]) G).
Proof. unfold touch_config; simpl. by rewrite alter_last. Qed.

Ltac go_step :=
  unfold bind, ret, record, panic, stuck; cbn;
  rewrite ?get_tcp_at, ?set_tcp_at, ?get_tls_last, ?set_tls_last,
          ?touch_config_last.

Ltac go := repeat progress go_step.

(** *** The library calls, evaluated *)

Lemma net_DialTimeout_fail network address timeout w e :
  net w address timeout = DialFail e ->
  net_DialTimeout network address timeout w
  = (Ret (ConnNil, Some e),
     mkWorld (net w) (tcps w) (tlss w) (configs w)
       (log w ++ [EvDial network address timeout])).
Proof. intros E. unfold net_DialTimeout. go. by rewrite E. Qed.

Lemma net_DialTimeout_ok network address timeout w p :
  net w address timeout = DialOk p ->
  net_DialTimeout network address timeout w
  = (Ret (ConnTCP (length (tcps w)), None),
     mkWorld (net w) (tcps w ++ [mkTCP p [] 0]) (tlss w) (configs w)
       (log w ++ [EvDial network address timeout])).
Proof. intros E. unfold net_DialTimeout. go. by rewrite E. Qed.

Lemma Conn_Close_nil w :
  Conn_Close ConnNil w
  = (Panic nil_dereference,
     mkWorld (net w) (tcps w) (tlss w) (configs w) (log w ++ [EvClose ConnNil])).
Proof. reflexivity. Qed.

Lemma Conn_Write_tcp data N T p out k T' L C G :
  Conn_Write (ConnTCP (length T)) data (mkWorld N (T ++ mkTCP p out k :: T') L C G)
  = (Ret (fst (next_write p)),
     mkWorld N
       (T ++ mkTCP (snd (next_write p))
               (match fst (next_write p) with
                | None => out ++ data
                | Some _ => out
                end) k :: T')
       L C (G ++ [EvWrite (ConnTCP (length T)) data])).
Proof.
  unfold Conn_Write, transport_write. go.
  destruct (next_write p) as [[e|] p']; go; reflexivity.
Qed.

Lemma io_ReadFull_tcp_byte b0 N T wr b rest ie hs out k T' L C G :
  io_ReadFull (ConnTCP (length T)) [b0]
    (mkWorld N (T ++ mkTCP (mkPeer wr (b :: rest) ie hs) out k :: T') L C G)
  = (Ret ([b], None),
     mkWorld N (T ++ mkTCP (mkPeer wr rest ie hs) out k :: T') L C
       (G ++ [EvReadFull (ConnTCP (length T)) 1])).
Proof. unfold io_ReadFull, transport_read_full. go. reflexivity. Qed.

Lemma io_ReadFull_tcp_end b0 N T wr ie hs out k T' L C G :
  io_ReadFull (ConnTCP (length T)) [b0]
    (mkWorld N (T ++ mkTCP (mkPeer wr [] ie hs) out k :: T') L C G)
  = (Ret ([b0], Some ie),
     mkWorld N (T ++ mkTCP (mkPeer wr [] ie hs) out k :: T') L C
       (G ++ [EvReadFull (ConnTCP (length T)) 1])).
Proof. unfold io_ReadFull, transport_read_full. go. reflexivity. Qed.

Lemma Conn_Close_tcp N T p out k T' L C G :
  Conn_Close (ConnTCP (length T)) (mkWorld N (T ++ mkTCP p out k :: T') L C G)
  = (Ret None,
     mkWorld N (T ++ mkTCP p out (S k) :: T') L C (G ++ [EvClose (ConnTCP (length T))])).
Proof. unfold Conn_Close, transport_close. go. reflexivity. Qed.

Lemma Config_Clone_some q c N T L C G :
  C !! q = Some c ->
  Config_Clone (Some q) (mkWorld N T L C G)
  = (Ret (Some (length C)), mkWorld N T L (C ++ [c]) (G ++ [EvClone (Some q)])).
Proof. intros E. unfold Config_Clone. go. by rewrite E. Qed.

Lemma Config_Clone_dangling q N T L C G :
  C !! q = None ->
  Config_Clone (Some q) (mkWorld N T L C G)
  = (Stuck, mkWorld N T L C (G ++ [EvClone (Some q)])).
Proof. intros E. unfold Config_Clone. go. by rewrite E. Qed.

Lemma tls_Client_new c cfg N T L C G :
  tls_Client c cfg (mkWorld N T L C G)
  = (Ret (ConnTLS (length L)),
     mkWorld N T (L ++ [mkTLS c cfg HsPending []]) C (G ++ [EvTLSClient c cfg])).
Proof. reflexivity. Qed.

(** The first write through a new TLS wrapper runs the handshake, on the
    wrapper's configuration. *)
Lemma Conn_Write_tls_first data N T p out k T' L o C c G :
  Conn_Write (ConnTLS (length L)) data
    (mkWorld N (T ++ mkTCP p out k :: T')
       (L ++ [mkTLS (ConnTCP (length T)) (Some (length C)) HsPending o]) (C ++ [c]) G)
  = match peer_hs p with
    | Some e =>
        (Ret (Some e),
         mkWorld N (T ++ mkTCP p out k :: T')
           (L ++ [mkTLS (ConnTCP (length T)) (Some (length C)) (HsFailed e) o])
           (C ++ [handshake_touch c]) (G ++ [EvWrite (ConnTLS (length L)) data]))
    | None =>
        (Ret (fst (next_write p)),
         mkWorld N (T ++ mkTCP (snd (next_write p)) out k :: T')
           (L ++ [mkTLS (ConnTCP (length T)) (Some (length C)) HsDone
                    (match fst (next_write p) with
                     | None => o ++ data
                     | Some _ => o
                     end)])
           (C ++ [handshake_touch c]) (G ++ [EvWrite (ConnTLS (length L)) data]))
    end.
Proof.
  unfold Conn_Write, tls_Handshake, transport_write. go.
  destruct (peer_hs p) as [e|]; go; [reflexivity|].
  destruct (next_write p) as [[e|] p']; go; reflexivity.
Qed.

Lemma Conn_Close_tls N T p out k T' L t C G :
  tls_under t = ConnTCP (length T) ->
  Conn_Close (ConnTLS (length L)) (mkWorld N (T ++ mkTCP p out k :: T') (L ++ [t]) C G)
  = (Ret None,
     mkWorld N (T ++ mkTCP p out (S k) :: T') (L ++ [t]) C
       (G ++ [EvClose (ConnTLS (length L))])).
Proof. intros E. unfold Conn_Close, transport_close. go. rewrite E. go. reflexivity. Qed.

Arguments net_DialTimeout : simpl never.
Arguments Conn_Write : simpl never.
Arguments Conn_Close : simpl never.
Arguments io_ReadFull : simpl never.
Arguments Config_Clone : simpl never.
Arguments tls_Client : simpl never.

Ltac run_step :=
  unfold bind, ret, panic, stuck; cbn;
  rewrite ?Conn_Write_tcp, ?io_ReadFull_tcp_byte, ?io_ReadFull_tcp_end,
          ?Conn_Close_tcp, ?Conn_Close_nil, ?tls_Client_new,
          ?Conn_Write_tls_first;
  rewrite ?Conn_Close_tls by reflexivity;
  rewrite <- ?app_assoc.

Ltac run := repeat progress run_step.

Ltac unfold_dialer :=
  unfold BackendDial, BackendDial_body, BackendDial_deferred, sslOverlay,
    relayStartupMsg, binary_Write_BigEndian.

(** After the negotiation request was written on the newest transport: the
    response, the clone, the wrapper and the relay. *)
Ltac negotiated w q inn hs wr2 :=
  destruct inn as [|?b inn]; run;
  [ | destruct (_ =? pgAcceptSSLRequest) eqn:?A; run;
      [ destruct (configs w !! q) as [?c|] eqn:?Q;
        [ rewrite (Config_Clone_some _ _ _ _ _ _ _ Q); run;
          destruct hs as [?e|]; run;
          [ | wr2 ]
        | rewrite (Config_Clone_dangling _ _ _ _ _ _ Q); run ]
      | ] ].

(** Every way a call to [BackendDial] can go. *)
Ltac dial_paths w addr cfg :=
  unfold_dialer; run;
  let D := fresh "D" in
  let wr := fresh "wr" in
  let inn := fresh "inn" in
  let hs := fresh "hs" in
  let q := fresh "q" in
  destruct (net w addr (Second * 5)) as [?e|[wr inn ?ie hs]] eqn:D;
  [ rewrite (net_DialTimeout_fail _ _ _ _ _ D); run
  | rewrite (net_DialTimeout_ok _ _ _ _ _ D); run;
    destruct cfg as [q|]; run;
    [ destruct wr as [|[?e|] wr]; run;
      [ negotiated w q inn hs idtac
      |
      | negotiated w q inn hs ltac:(destruct wr as [|[?e|] wr]; run) ]
    | destruct wr as [|[?e|] wr]; run ] ].

Ltac observe :=
  unfold written, closed_count, closes, transport_of; cbn;
  rewrite ?lookup_middle; cbn; rewrite ?lookup_middle; cbn.

(** C7: when [BackendDial] succeeds, writing the encoded start message to
    the returned connection was its last step: the log ends with that write,
    nothing was closed, the bytes written through the returned connection are
    exactly the encoded message, and the connection is open. *)
Theorem BackendDial_success_relays_payload (msg : StartupMessage) addr cfg w c w' :
  BackendDial msg addr cfg w = (Ret (c, None), w') ->
  c ≠ ConnNil
  ∧ (∃ evs, log w' = log w ++ evs
            ∧ last evs = Some (EvWrite c (Encode msg))
            ∧ Forall (λ ev, is_close ev = false) evs)
  ∧ written w' c = Some (Encode msg)
  ∧ closed_count w' c = Some 0%nat.
Proof.
  dial_paths w addr cfg; intros E; simplify_eq.
  all: split; [discriminate|].
  all: split; [eexists; split; [reflexivity | split; [reflexivity | repeat constructor]]
              | observe; done].
Qed.

(** Whatever happens, the first thing a call does is to dial. *)
Lemma BackendDial_log_starts_with_dial (msg : StartupMessage) addr cfg w r w' :
  BackendDial msg addr cfg w = (r, w') ->
  ∃ evs, log w' = log w ++ EvDial "tcp" addr (Second * 5) :: evs.
Proof.
  dial_paths w addr cfg; intros E; simplify_eq; eexists; reflexivity.
Qed.

(** C9: every call opens the transport with [net.DialTimeout] on "tcp",
    the given address and a timeout of five seconds, before anything else;
    when the dial fails (the timeout elapsed, the address is unreachable or
    refused) the call returns a nil connection and a [codeBackendDown] error
    built from the transport error, and no connection object was created. *)
Theorem BackendDial_dial_failure (msg : StartupMessage) addr cfg w :
  Second * 5 = 5 * 1000000000
  ∧ (∃ evs, log (BackendDial msg addr cfg w).2
            = log w ++ EvDial "tcp" addr (Second * 5) :: evs)
  ∧ (∀ e, net w addr (Second * 5) = DialFail e →
       ∃ err, BackendDial msg addr cfg w
              = (Ret (ConnNil, Some err),
                 mkWorld (net w) (tcps w) (tlss w) (configs w)
                   (log w ++ [EvDial "tcp" addr (Second * 5)]))
              ∧ err = newErrorf codeBackendDown
                        "unable to reach backend SQL server: %v" [ArgError e]
              ∧ code_of err = Some codeBackendDown
              ∧ carries err e).
Proof.
  split; [reflexivity|]. split.
  - destruct (BackendDial msg addr cfg w) as [r w'] eqn:E.
    exact (BackendDial_log_starts_with_dial _ _ _ _ _ _ E).
  - intros e D. eexists. split; [|split; [reflexivity|split; [reflexivity|]]].
    + unfold_dialer. run. rewrite (net_DialTimeout_fail _ _ _ _ _ D). run. reflexivity.
    + cbn. apply list_elem_of_here.
Qed.

(** C6: with no TLS configuration [sslOverlay] returns the connection it was
    given and leaves the world as it was; in a call to [BackendDial] the
    first write on the new connection is the encoded start message, and what
    has been written on the transport is that message, or nothing when the
    write failed. *)
Theorem no_tls_config_skips_negotiation (msg : StartupMessage) addr w p :
  net w addr (Second * 5) = DialOk p ->
  (∀ conn w0, sslOverlay conn None w0 = (Ret (conn, None), w0))
  ∧ ∃ r w' t evs,
      BackendDial msg addr None w = (r, w')
      ∧ log w' = log w ++ EvDial "tcp" addr (Second * 5)
                   :: EvWrite (ConnTCP (length (tcps w))) (Encode msg) :: evs
      ∧ Forall (λ ev, is_write ev = false ∧ is_read ev = false) evs
      ∧ tcps w' !! length (tcps w) = Some t
      ∧ tcp_out t = match fst (next_write p) with
                    | None => Encode msg
                    | Some _ => []
                    end.
Proof.
  intros D. split; [reflexivity|].
  destruct (BackendDial msg addr None w) as [r w'] eqn:E. exists r, w'.
  revert E. unfold_dialer. run. rewrite (net_DialTimeout_ok _ _ _ _ _ D). run.
  destruct (next_write p) as [[e|] p']; run; intros E; simplify_eq.
  all: do 2 eexists; split; [reflexivity|].
  all: split; [reflexivity|]; split; [repeat constructor|].
  all: cbn; rewrite lookup_middle; split; reflexivity.
Qed.

(** C10: a call never changes a configuration that existed before it, so
    not the caller's; when it returns a TLS connection, that connection works
    on a new configuration, a copy of the caller's, and the handshake touched
    the copy. *)
Theorem caller_config_not_mutated (msg : StartupMessage) addr cfg w r w' :
  BackendDial msg addr cfg w = (r, w') ->
  (∀ q c, configs w !! q = Some c → configs w' !! q = Some c)
  ∧ (∀ j, r = Ret (ConnTLS j, None) →
       ∃ tl q c, cfg = Some q
         ∧ configs w !! q = Some c
         ∧ tlss w' !! j = Some tl
         ∧ tls_cfg tl = Some (length (configs w))
         ∧ q ≠ length (configs w)
         ∧ configs w' !! length (configs w) = Some (handshake_touch c)).
Proof.
  dial_paths w addr cfg; intros E; simplify_eq.
  all: split;
    [ intros q' c' Hq; cbn; try exact Hq; by apply lookup_app_l_Some
    | intros j Hj; simplify_eq ].
  all: do 3 eexists; split; [reflexivity|]; split; [eassumption|].
  all: cbn; rewrite !lookup_middle.
  all: split; [reflexivity|]; split; [reflexivity|]; split; [|reflexivity].
  all: intros ->; match goal with Q : _ !! length _ = Some _ |- _ =>
         apply lookup_lt_Some in Q; lia end.
Qed.

(** [sslOverlay] returns a nil connection with every error. *)
Lemma sslOverlay_error_returns_nil conn cfg w c e w' :
  sslOverlay conn cfg w = (Ret (c, Some e), w') -> c = ConnNil.
Proof.
  unfold sslOverlay, binary_Write_BigEndian, bind, ret.
  destruct cfg as [q|]; [|intros E; simplify_eq].
  destruct (Conn_Write _ _ _) as [[[e1|]|s|] w1]; try (intros E; simplify_eq; done).
  destruct (io_ReadFull _ _ _) as [[[resp [e2|]]|s|] w2]; try (intros E; simplify_eq; done).
  destruct (index _ _ _) as [[r0|s|] w3]; try (intros E; simplify_eq; done).
  destruct (negb _); [intros E; simplify_eq; done|].
  destruct (Config_Clone _ _) as [[o|s|] w4]; intros E; simplify_eq.
Qed.

(** C5: [sslOverlay] returns a nil connection with every error; in
    [BackendDial] that nil is what the variable [conn] holds when the
    deferred function runs, so [Close] is called on nil: the call panics,
    the log ends with that call, and the transport that was dialed has not
    been closed. *)
Theorem negotiation_failure_closes_nil_conn (msg : StartupMessage) addr q :
  (∀ conn cfg w c e w',
     sslOverlay conn cfg w = (Ret (c, Some e), w') → c = ConnNil)
  ∧ (∀ w c0 w1 c e w2,
       net_DialTimeout "tcp" addr (Second * 5) w = (Ret (c0, None), w1) →
       sslOverlay c0 (Some q) w1 = (Ret (c, Some e), w2) →
       ∃ w3, BackendDial msg addr (Some q) w = (Panic nil_dereference, w3)
             ∧ log w3 = log w2 ++ [EvClose ConnNil]
             ∧ Forall (λ ev, is_close ev = false) (drop (length (log w)) (log w2))
             ∧ closed_count w3 c0 = Some 0%nat).
Proof.
  split; [exact sslOverlay_error_returns_nil|].
  intros w c0 w1 c e w2 D.
  destruct (net w addr (Second * 5)) as [e0|[wr inn ie hs]] eqn:N.
  { rewrite (net_DialTimeout_fail _ _ _ _ _ N) in D. simplify_eq. }
  assert (D' := D). rewrite (net_DialTimeout_ok _ _ _ _ _ N) in D'. simplify_eq.
  unfold_dialer. run. rewrite D. run.
  destruct wr as [|[e1|] wr]; run.
  1,3: destruct inn as [|b inn]; run;
       [ | destruct (_ =? pgAcceptSSLRequest); run;
           [ destruct (Config_Clone _ _) as [[o|s|] w4]; run | ] ].
  all: intros E; simplify_eq.
  all: eexists; split; [reflexivity|].
  all: split; [cbn; rewrite <- ?app_assoc; reflexivity|].
  all: split; [cbn; rewrite drop_app_length; repeat constructor | observe; reflexivity].
Qed.

(** C3, as the code has it: when the peer accepts the request, [sslOverlay]
    returns a TLS wrapper whose handshake has not run, and no error; the
    handshake runs in the write of the start message, and its failure comes
    back as a [codeBackendDown] error of the relay, built from the address
    and the handshake error, with the transport closed once. *)
Theorem handshake_failure_reported_by_relay (msg : StartupMessage) addr q c w wr inn ie e :
  net w addr (Second * 5) = DialOk (mkPeer wr (pgAcceptSSLRequest :: inn) ie (Some e)) ->
  fst (next_write (mkPeer wr (pgAcceptSSLRequest :: inn) ie (Some e))) = None ->
  configs w !! q = Some c ->
  (∃ w1 w2,
     net_DialTimeout "tcp" addr (Second * 5) w = (Ret (ConnTCP (length (tcps w)), None), w1)
     ∧ sslOverlay (ConnTCP (length (tcps w))) (Some q) w1
       = (Ret (ConnTLS (length (tlss w)), None), w2)
     ∧ tlss w2 !! length (tlss w)
       = Some (mkTLS (ConnTCP (length (tcps w))) (Some (length (configs w))) HsPending []))
  ∧ ∃ err w',
      BackendDial msg addr (Some q) w = (Ret (ConnNil, Some err), w')
      ∧ err = newErrorf codeBackendDown
                "relaying StartupMessage to target server %v: %v"
                [ArgString addr; ArgError e]
      ∧ code_of err = Some codeBackendDown
      ∧ carries err e
      ∧ closes w' (length (tcps w)) = Some 1%nat
      ∧ (tls_hs <$> tlss w' !! length (tlss w)) = Some (HsFailed e).
Proof.
  intros D W Q.
  destruct wr as [|[e1|] wr]; [| discriminate W |]; clear W.
  all: split.
  1,3: do 2 eexists; split; [exact (net_DialTimeout_ok _ _ _ _ _ D)|];
       unfold_dialer; run; rewrite Z.eqb_refl; run;
       rewrite (Config_Clone_some _ _ _ _ _ _ _ Q); run;
       split; [reflexivity | cbn; by rewrite lookup_middle].
  all: do 2 eexists; split; [|split; [reflexivity|split; [reflexivity|split]]].
  1,4: unfold_dialer; run; rewrite (net_DialTimeout_ok _ _ _ _ _ D); run;
       rewrite Z.eqb_refl; run; rewrite (Config_Clone_some _ _ _ _ _ _ _ Q); run;
       reflexivity.
  1,3: cbn; apply list_elem_of_further, list_elem_of_here.
  all: observe; split; reflexivity.
Qed.

(** *** The negotiation request *)

Lemma shifted_byte_bit (x k m : Z) :
  0 ≤ k -> 0 ≤ m ->
  Z.testbit (Z.shiftl (Z.land (Z.shiftr x k) 255) k) m
  = Z.testbit x m && (k <=? m) && (m <? k + 8).
Proof.
  intros Hk Hm. destruct (Z.leb_spec k m) as [L|L].
  - rewrite Z.shiftl_spec, Z.land_spec, Z.shiftr_spec by lia.
    change 255 with (Z.ones 8). rewrite Z.testbit_ones_nonneg by lia.
    replace (m - k + k) with m by lia.
    destruct (Z.ltb_spec (m - k) 8), (Z.ltb_spec m (k + 8)); try lia;
      by rewrite ?andb_true_r, ?andb_false_r.
  - rewrite Z.shiftl_spec_low by lia. by rewrite andb_false_r.
Qed.

(** The encoding is big-endian: read back most significant byte first, the
    four bytes give the value, as a 32-bit one. *)
Lemma BigEndian_Uint32_PutUint32 (v : Z) :
  BigEndian_Uint32 (BigEndian_PutUint32 v) = v `mod` 2 ^ 32.
Proof.
  unfold BigEndian_Uint32, BigEndian_PutUint32.
  change (Z.land v 255) with (Z.shiftl (Z.land (Z.shiftr v 0) 255) 0).
  apply Z.bits_inj'. intros n Hn.
  rewrite !Z.lor_spec, !shifted_byte_bit, Z.testbit_mod_pow2 by lia.
  destruct (Z.testbit v n); cbn; [|by rewrite andb_false_r].
  repeat match goal with
         | |- context [?a <=? ?b] => destruct (Z.leb_spec a b)
         | |- context [?a <? ?b] => destruct (Z.ltb_spec a b)
         end; cbn; try reflexivity; lia.
Qed.

(** C8: with a TLS configuration, [sslOverlay] first writes the request on
    the connection, the 4 bytes of [pgSSLRequest] in big-endian order; when
    that write fails nothing is read; otherwise the next call is one
    [io.ReadFull] of a 1-byte buffer, which takes one byte off the peer's
    stream, and nothing else is read or written. *)
Theorem sslOverlay_request_then_one_byte i t q w :
  tcps w !! i = Some t ->
  length (BigEndian_PutUint32 pgSSLRequest) = 4%nat
  ∧ BigEndian_Uint32 (BigEndian_PutUint32 pgSSLRequest) = pgSSLRequest `mod` 2 ^ 32
  ∧ ∃ r w' t' evs,
      sslOverlay (ConnTCP i) (Some q) w = (r, w')
      ∧ log w' = log w ++ EvWrite (ConnTCP i) (BigEndian_PutUint32 pgSSLRequest) :: evs
      ∧ tcps w' !! i = Some t'
      ∧ match fst (next_write (tcp_peer t)) with
        | Some _ =>
            evs = []
            ∧ tcp_out t' = tcp_out t
            ∧ peer_in (tcp_peer t') = peer_in (tcp_peer t)
        | None =>
            tcp_out t' = tcp_out t ++ BigEndian_PutUint32 pgSSLRequest
            ∧ peer_in (tcp_peer t') = drop 1 (peer_in (tcp_peer t))
            ∧ ∃ evs', evs = EvReadFull (ConnTCP i) 1 :: evs'
                      ∧ Forall (λ ev, is_read ev = false ∧ is_write ev = false) evs'
        end.
Proof.
  intros Hi. split; [reflexivity|]. split; [apply BigEndian_Uint32_PutUint32|].
  destruct (sslOverlay (ConnTCP i) (Some q) w) as [r w'] eqn:E. exists r, w'.
  revert E. destruct w as [N TT L C G]. cbn in Hi.
  assert (Hlen : length (take i TT) = i).
  { rewrite length_take. apply lookup_lt_Some in Hi. lia. }
  pose proof (take_drop_middle TT i t Hi) as HT.
  remember (take i TT) as T eqn:ET. remember (drop (S i) TT) as T' eqn:ET'.
  clear ET ET' Hi. subst TT i.
  destruct t as [[wr inn ie hs] out k].
  unfold_dialer. run.
  destruct wr as [|[e|] wr]; run.
  1,3: destruct inn as [|b inn]; run;
       [ | destruct (_ =? pgAcceptSSLRequest); run;
           [ destruct (C !! q) as [c|] eqn:Q;
             [ rewrite (Config_Clone_some _ _ _ _ _ _ _ Q)
             | rewrite (Config_Clone_dangling _ _ _ _ _ _ Q) ]; run | ] ].
  all: intros E; simplify_eq.
  all: do 2 eexists; split; [reflexivity|].
  all: cbn; rewrite lookup_middle; split; [reflexivity|].
  all: cbn; repeat split; try reflexivity.
  all: eexists; split; [reflexivity | repeat constructor].
Qed.

(** *** What a call returns, and what it leaves behind *)

(** A call that returns gives back a connection or an error, never both and
    never neither; every error it returns has the code [codeBackendDown], so
    a [codeBackendRefusedTLS] error never reaches the caller. *)
Theorem BackendDial_returns_conn_xor_error (msg : StartupMessage) addr cfg w c err w' :
  BackendDial msg addr cfg w = (Ret (c, err), w') ->
  (err = None ∧ c ≠ ConnNil)
  ∨ (∃ e, err = Some e ∧ c = ConnNil ∧ code_of e = Some codeBackendDown).
Proof.
  dial_paths w addr cfg; intros E; simplify_eq.
  all: first [ left; split; [reflexivity | discriminate]
             | right; eexists; split; [reflexivity | split; reflexivity] ].
Qed.

(** When the dial succeeded and the call returns an error, the error is the
    relay's, built from the address and the write error; the last two calls
    are the write of the start message and the [Close] of the connection
    written to, that [Close] is the only one, and the dialed transport has
    been closed once. *)
Theorem BackendDial_relay_failure_closes_once (msg : StartupMessage) addr cfg w p c e w' :
  net w addr (Second * 5) = DialOk p ->
  BackendDial msg addr cfg w = (Ret (c, Some e), w') ->
  c = ConnNil
  ∧ (∃ werr, e = newErrorf codeBackendDown
                   "relaying StartupMessage to target server %v: %v"
                   [ArgString addr; ArgError werr])
  ∧ closes w' (length (tcps w)) = Some 1%nat
  ∧ ∃ evs conn, log w' = log w ++ evs
      ∧ drop (length evs - 2) evs = [EvWrite conn (Encode msg); EvClose conn]
      ∧ length (List.filter is_close evs) = 1%nat.
Proof.
  intros Hn. revert Hn. dial_paths w addr cfg; intros Hn E; simplify_eq.
  all: split; [reflexivity|]; split; [eexists; reflexivity|].
  all: split; [observe; reflexivity|].
  all: do 2 eexists; split; [reflexivity|]; split; reflexivity.
Qed.



(** A call leaves every connection and every TLS wrapper that existed before
    it as it was: calls share no connection state. *)
Theorem BackendDial_frames_existing_connections (msg : StartupMessage) addr cfg w r w' :
  BackendDial msg addr cfg w = (r, w') ->
  (∀ i t, tcps w !! i = Some t → tcps w' !! i = Some t)
  ∧ (∀ j t, tlss w !! j = Some t → tlss w' !! j = Some t).
Proof.
  dial_paths w addr cfg; intros E; simplify_eq.
  all: split; intros k t Hk; cbn; try exact Hk; by apply lookup_app_l_Some.
Qed.

(** A call dials once: there is no retry inside it. *)
Theorem BackendDial_dials_once (msg : StartupMessage) addr cfg w r w' :
  BackendDial msg addr cfg w = (r, w') ->
  ∃ evs, log w' = log w ++ EvDial "tcp" addr (Second * 5) :: evs
         ∧ Forall (λ ev, is_dial ev = false) evs
         ∧ (length (List.filter is_write evs) ≤ 2)%nat.
Proof.
  dial_paths w addr cfg; intros E; simplify_eq.
  all: eexists; split; [reflexivity|]; split; [repeat constructor | cbn; lia].
Qed.

(** *** What [sslOverlay] returns on a transport *)

Lemma tcp_handle_split (TT : list TCPConn) i t :
  TT !! i = Some t -> ∃ T T', TT = T ++ t :: T' ∧ i = length T.
Proof.
  intros Hi. exists (take i TT), (drop (S i) TT). split.
  - symmetry. by apply take_drop_middle.
  - rewrite length_take. apply lookup_lt_Some in Hi. lia.
Qed.

(** On the transport [i] of the world [w]: name the connections before and
    after it, and the fields of its peer. *)
Ltac at_handle w Hi :=
  destruct w as [?N ?TT ?L ?C ?G]; cbn in Hi;
  destruct (tcp_handle_split _ _ _ Hi) as (?T & ?T' & -> & ->); clear Hi.

(** When the write of the request fails, [sslOverlay] returns a nil
    connection and a [codeBackendDown] error built from the write error. *)
Theorem sslOverlay_write_failure i t q w e :
  tcps w !! i = Some t ->
  fst (next_write (tcp_peer t)) = Some e ->
  ∃ err w',
    sslOverlay (ConnTCP i) (Some q) w = (Ret (ConnNil, Some err), w')
    ∧ err = newErrorf codeBackendDown "sending SSLRequest to target server: %v"
              [ArgError e]
    ∧ carries err e
    ∧ tlss w' = tlss w
    ∧ configs w' = configs w
    ∧ closes w' i = closes w i.
Proof.
  intros Hi Hw. at_handle w Hi. destruct t as [[wr inn ie hs] out k].
  destruct wr as [|[e1|] wr]; cbn in Hw; simplify_eq.
  do 2 eexists. split; [unfold_dialer; run; reflexivity|].
  split; [reflexivity|]. split; [cbn; apply list_elem_of_here|].
  split; [reflexivity|]. split; [reflexivity|]. by observe.
Qed.

(** When the peer's stream ends before one byte, [sslOverlay] returns a nil
    connection and a [codeBackendDown] error, not a refusal; the error is
    built from no argument, so the read error is not in it. *)
Theorem sslOverlay_short_read i t q w :
  tcps w !! i = Some t ->
  fst (next_write (tcp_peer t)) = None ->
  peer_in (tcp_peer t) = [] ->
  ∃ err w',
    sslOverlay (ConnTCP i) (Some q) w = (Ret (ConnNil, Some err), w')
    ∧ err = newErrorf codeBackendDown "reading response to SSLRequest" []
    ∧ (∀ e, ¬ carries err e)
    ∧ tlss w' = tlss w
    ∧ configs w' = configs w
    ∧ closes w' i = closes w i.
Proof.
  intros Hi Hw Hin. at_handle w Hi. destruct t as [[wr inn ie hs] out k].
  cbn in Hin. subst inn.
  destruct wr as [|[e1|] wr]; cbn in Hw; simplify_eq.
  all: do 2 eexists; split; [unfold_dialer; run; reflexivity|].
  all: split; [reflexivity|]; split; [intros e He; cbn in He; by apply elem_of_nil in He|].
  all: split; [reflexivity|]; split; [reflexivity|]; by observe.
Qed.

(** When the peer answers with a byte that is not the accept code,
    [sslOverlay] returns a nil connection and a [codeBackendRefusedTLS]
    error; it took that one byte off the stream, cloned no configuration,
    made no TLS wrapper and closed nothing. *)
Theorem sslOverlay_refusal i t q w b rest :
  tcps w !! i = Some t ->
  fst (next_write (tcp_peer t)) = None ->
  peer_in (tcp_peer t) = b :: rest ->
  b ≠ pgAcceptSSLRequest ->
  ∃ err w' t',
    sslOverlay (ConnTCP i) (Some q) w = (Ret (ConnNil, Some err), w')
    ∧ err = newErrorf codeBackendRefusedTLS "target server refused TLS connection" []
    ∧ tlss w' = tlss w
    ∧ configs w' = configs w
    ∧ tcps w' !! i = Some t'
    ∧ peer_in (tcp_peer t') = rest
    ∧ tcp_closed t' = tcp_closed t.
Proof.
  intros Hi Hw Hin Hb. at_handle w Hi. destruct t as [[wr inn ie hs] out k].
  cbn in Hin. subst inn. apply Z.eqb_neq in Hb.
  destruct wr as [|[e1|] wr]; cbn in Hw; simplify_eq.
  all: do 3 eexists; split; [unfold_dialer; run; rewrite Hb; run; reflexivity|].
  all: split; [reflexivity|]; split; [reflexivity|]; split; [reflexivity|].
  all: cbn; rewrite lookup_middle; split; [reflexivity|]; split; reflexivity.
Qed.

(** When the peer answers with the accept code, [sslOverlay] returns a new
    TLS wrapper around the connection and no error; the wrapper works on a
    new configuration with the contents of the caller's, its handshake has
    not run, and the transport has not been closed. *)
Theorem sslOverlay_accept i t q c w rest :
  tcps w !! i = Some t ->
  fst (next_write (tcp_peer t)) = None ->
  peer_in (tcp_peer t) = pgAcceptSSLRequest :: rest ->
  configs w !! q = Some c ->
  ∃ w',
    sslOverlay (ConnTCP i) (Some q) w = (Ret (ConnTLS (length (tlss w)), None), w')
    ∧ tlss w' = tlss w ++ [mkTLS (ConnTCP i) (Some (length (configs w))) HsPending []]
    ∧ configs w' = configs w ++ [c]
    ∧ closes w' i = closes w i.
Proof.
  intros Hi Hw Hin Hq. at_handle w Hi. destruct t as [[wr inn ie hs] out k].
  cbn in Hin, Hq. subst inn.
  destruct wr as [|[e1|] wr]; cbn in Hw; simplify_eq.
  all: eexists; split;
    [ unfold_dialer; run; rewrite Z.eqb_refl; run;
      rewrite (Config_Clone_some _ _ _ _ _ _ _ Hq); run; reflexivity |].
  all: split; [reflexivity|]; split; [reflexivity|]; by observe.
Qed.

End DialerProofs.

(** ** The properties on the sample worlds *)

Import Sample.

Lemma BackendDial_success_relays_payload_witness :
  written (dial (Some 0%nat) accepting).2 (ConnTLS 0) = Some payload
  ∧ closed_count (dial (Some 0%nat) accepting).2 (ConnTLS 0) = Some 0%nat.
Proof.
  assert (E : @BackendDial env payload address (Some 0%nat) (world accepting)
              = (Ret (ConnTLS 0, None), (dial (Some 0%nat) accepting).2))
    by (vm_compute; reflexivity).
  destruct (BackendDial_success_relays_payload (H := env) payload address
              (Some 0%nat) (world accepting) (ConnTLS 0)
              (dial (Some 0%nat) accepting).2 E) as (_ & _ & Hw & Hc).
  exact (conj Hw Hc).
Defined.

Lemma BackendDial_dial_failure_witness :
  (@BackendDial env payload address None dead_world).1
  = Ret (ConnNil,
         Some (newErrorf codeBackendDown "unable to reach backend SQL server: %v"
                 [ArgError (LibError "i/o timeout")]))
  ∧ tcps (@BackendDial env payload address None dead_world).2 = [].
Proof.
  destruct (proj2 (proj2 (BackendDial_dial_failure (H := env) payload address None
                            dead_world)) (LibError "i/o timeout") eq_refl)
    as (err & E & -> & _).
  rewrite E. split; reflexivity.
Defined.

Lemma no_tls_config_skips_negotiation_witness :
  @sslOverlay env (ConnTCP 0) None (dialed accepting)
  = (Ret (ConnTCP 0, None), dialed accepting).
Proof.
  exact (proj1 (no_tls_config_skips_negotiation (H := env) payload address
                  (world accepting) accepting eq_refl)
           (ConnTCP 0) (dialed accepting)).
Defined.

Lemma caller_config_not_mutated_witness :
  configs (dial (Some 0%nat) accepting).2 !! 0%nat = Some 7%nat
  ∧ configs (dial (Some 0%nat) accepting).2 !! 1%nat = Some 8%nat.
Proof.
  assert (E : @BackendDial env payload address (Some 0%nat) (world accepting)
              = (Ret (ConnTLS 0, None), (dial (Some 0%nat) accepting).2))
    by (vm_compute; reflexivity).
  destruct (caller_config_not_mutated (H := env) payload address (Some 0%nat)
              (world accepting) (Ret (ConnTLS 0, None))
              (dial (Some 0%nat) accepting).2 E) as [Hold Hnew].
  split; [exact (Hold 0%nat 7%nat eq_refl)|].
  destruct (Hnew 0%nat eq_refl) as (tl & q & c & Hq & Hc & _ & _ & _ & Hcopy).
  injection Hq as <-. injection Hc as <-. exact Hcopy.
Defined.

Lemma negotiation_failure_closes_nil_conn_witness :
  (dial (Some 0%nat) refusing).1 = Panic nil_dereference
  ∧ closed_count (dial (Some 0%nat) refusing).2 (ConnTCP 0) = Some 0%nat.
Proof.
  destruct (proj2 (negotiation_failure_closes_nil_conn (H := env) payload address 0%nat)
              (world refusing) (ConnTCP 0) (dialed refusing) ConnNil
              (newErrorf codeBackendRefusedTLS "target server refused TLS connection" [])
              (overlaid refusing).2 eq_refl eq_refl) as (w3 & E & _ & _ & Hc).
  unfold dial. rewrite E. exact (conj eq_refl Hc).
Defined.

Lemma handshake_failure_reported_by_relay_witness :
  ∃ err w', dial (Some 0%nat) bad_handshake = (Ret (ConnNil, Some err), w')
            ∧ code_of err = Some codeBackendDown
            ∧ carries err x509_error
            ∧ closes w' 0 = Some 1%nat.
Proof.
  destruct (proj2 (handshake_failure_reported_by_relay (H := env) payload address
                     0%nat 7%nat (world bad_handshake) [] [] io_EOF x509_error
                     eq_refl eq_refl eq_refl))
    as (err & w' & E & _ & Hcode & Hcarries & Hclosed & _).
  exists err, w'. exact (conj E (conj Hcode (conj Hcarries Hclosed))).
Defined.

Lemma sslOverlay_request_then_one_byte_witness :
  length (BigEndian_PutUint32 (@pgSSLRequest env)) = 4%nat
  ∧ BigEndian_Uint32 (BigEndian_PutUint32 (@pgSSLRequest env)) = 80877103.
Proof.
  destruct (sslOverlay_request_then_one_byte (H := env) 0%nat (mkTCP accepting [] 0)
              0%nat connected eq_refl) as (Hlen & Hval & _).
  exact (conj Hlen Hval).
Defined.

(** C3, as the claim has it, fails: a handshake that fails after the peer
    accepted comes back as a [codeBackendDown] error with the relay's
    message, not as the handshake error itself. *)
Lemma handshake_failure_classified_as_relay_failure :
  ∃ err, (dial (Some 0%nat) bad_handshake).1 = Ret (ConnNil, Some err)
         ∧ (overlaid bad_handshake).1 = Ret (ConnTLS 0, None)
         ∧ code_of err = Some codeBackendDown
         ∧ err = newErrorf codeBackendDown
                   "relaying StartupMessage to target server %v: %v"
                   [ArgString address; ArgError x509_error]
         ∧ err ≠ x509_error.
Proof.
  exists (newErrorf codeBackendDown "relaying StartupMessage to target server %v: %v"
            [ArgString address; ArgError x509_error]).
  split; [vm_compute; reflexivity|]. split; [vm_compute; reflexivity|].
  repeat split. discriminate.
Qed.

(** C1: the write of the negotiation request fails.  [sslOverlay] returns
    a nil connection and a [codeBackendDown] error; [BackendDial] then calls
    [Close] on nil and panics, and the transport it dialed is never
    closed. *)
Theorem negotiation_write_failure_leaks_transport :
  (overlaid not_writable).1
  = Ret (ConnNil,
         Some (newErrorf codeBackendDown "sending SSLRequest to target server: %v"
                 [ArgError (LibError "broken pipe")]))
  ∧ (dial (Some 0%nat) not_writable).1 = Panic nil_dereference
  ∧ log (dial (Some 0%nat) not_writable).2
    = [EvDial "tcp" address 5000000000;
       EvWrite (ConnTCP 0) [4; 210; 22; 47];
       EvClose ConnNil]
  ∧ closes (dial (Some 0%nat) not_writable).2 0 = Some 0%nat.
Proof. repeat split; vm_compute; reflexivity. Qed.

(** C2: the peer answers 'N'.  [sslOverlay] returns a nil connection and
    a [codeBackendRefusedTLS] error; [BackendDial] then calls [Close] on nil
    and panics instead of returning that error, and the transport is never
    closed. *)
Theorem refused_tls_panics_and_leaks_transport :
  (overlaid refusing).1
  = Ret (ConnNil,
         Some (newErrorf codeBackendRefusedTLS "target server refused TLS connection" []))
  ∧ (dial (Some 0%nat) refusing).1 = Panic nil_dereference
  ∧ log (dial (Some 0%nat) refusing).2
    = [EvDial "tcp" address 5000000000;
       EvWrite (ConnTCP 0) [4; 210; 22; 47];
       EvReadFull (ConnTCP 0) 1;
       EvClose ConnNil]
  ∧ closes (dial (Some 0%nat) refusing).2 0 = Some 0%nat.
Proof. repeat split; vm_compute; reflexivity. Qed.

(** C4: the peer closes the connection without answering.  [sslOverlay]
    returns a nil connection and a [codeBackendDown] error, not a refusal;
    [BackendDial] then calls [Close] on nil and panics instead of returning
    that error, and the transport is never closed. *)
Theorem short_read_panics_and_leaks_transport :
  (overlaid hanging_up).1
  = Ret (ConnNil, Some (newErrorf codeBackendDown "reading response to SSLRequest" []))
  ∧ (dial (Some 0%nat) hanging_up).1 = Panic nil_dereference
  ∧ log (dial (Some 0%nat) hanging_up).2
    = [EvDial "tcp" address 5000000000;
       EvWrite (ConnTCP 0) [4; 210; 22; 47];
       EvReadFull (ConnTCP 0) 1;
       EvClose ConnNil]
  ∧ closes (dial (Some 0%nat) hanging_up).2 0 = Some 0%nat.
Proof. repeat split; vm_compute; reflexivity. Qed.

(** ** The further properties on the sample worlds *)

Lemma BackendDial_returns_conn_xor_error_witness :
  (∃ e, Some (newErrorf codeBackendDown
                "relaying StartupMessage to target server %v: %v"
                [ArgString address; ArgError (LibError "broken pipe")]) = Some e
        ∧ code_of e = Some codeBackendDown).
Proof.
  assert (E : @BackendDial env payload address None (world not_writable)
              = (Ret (ConnNil,
                      Some (newErrorf codeBackendDown
                              "relaying StartupMessage to target server %v: %v"
                              [ArgString address; ArgError (LibError "broken pipe")])),
                 (dial None not_writable).2))
    by (vm_compute; reflexivity).
  destruct (BackendDial_returns_conn_xor_error (H := env) payload address None
              (world not_writable) _ _ _ E) as [[Hn _]|(e & He & _ & Hc)].
  - discriminate Hn.
  - exists e. exact (conj He Hc).
Defined.

Lemma BackendDial_relay_failure_closes_once_witness :
  closes (dial (Some 0%nat) relay_broken).2 0 = Some 1%nat.
Proof.
  assert (E : @BackendDial env payload address (Some 0%nat) (world relay_broken)
              = (Ret (ConnNil,
                      Some (newErrorf codeBackendDown
                              "relaying StartupMessage to target server %v: %v"
                              [ArgString address; ArgError (LibError "broken pipe")])),
                 (dial (Some 0%nat) relay_broken).2))
    by (vm_compute; reflexivity).
  destruct (BackendDial_relay_failure_closes_once (H := env) payload address
              (Some 0%nat) (world relay_broken) relay_broken _ _ _ eq_refl E)
    as (_ & _ & Hc & _).
  exact Hc.
Defined.


Lemma BackendDial_frames_existing_connections_witness :
  tcps (@BackendDial env payload address (Some 0%nat) (connected_to refusing)).2 !! 0%nat
  = Some (mkTCP refusing [] 0).
Proof.
  assert (E : @BackendDial env payload address (Some 0%nat) (connected_to refusing)
              = ((@BackendDial env payload address (Some 0%nat) (connected_to refusing)).1,
                 (@BackendDial env payload address (Some 0%nat) (connected_to refusing)).2))
    by (vm_compute; reflexivity).
  exact (proj1 (BackendDial_frames_existing_connections (H := env) payload address
                  (Some 0%nat) (connected_to refusing) _ _ E)
           0%nat (mkTCP refusing [] 0) eq_refl).
Defined.

Lemma BackendDial_dials_once_witness :
  ∃ evs, log (dial (Some 0%nat) accepting).2
         = log (world accepting) ++ EvDial "tcp" address (Second * 5) :: evs
         ∧ Forall (λ ev, is_dial ev = false) evs.
Proof.
  assert (E : @BackendDial env payload address (Some 0%nat) (world accepting)
              = (Ret (ConnTLS 0, None), (dial (Some 0%nat) accepting).2))
    by (vm_compute; reflexivity).
  destruct (BackendDial_dials_once (H := env) payload address (Some 0%nat)
              (world accepting) _ _ E) as (evs & Hl & Hd & _).
  exists evs. exact (conj Hl Hd).
Defined.

Lemma sslOverlay_write_failure_witness :
  ∃ err w', @sslOverlay env (ConnTCP 0) (Some 0%nat) (connected_to not_writable)
            = (Ret (ConnNil, Some err), w')
            ∧ carries err (LibError "broken pipe").
Proof.
  destruct (sslOverlay_write_failure (H := env) 0%nat (mkTCP not_writable [] 0) 0%nat
              (connected_to not_writable) (LibError "broken pipe") eq_refl eq_refl)
    as (err & w' & E & _ & Hc & _).
  exists err, w'. exact (conj E Hc).
Defined.

Lemma sslOverlay_short_read_witness :
  ∃ err w', @sslOverlay env (ConnTCP 0) (Some 0%nat) (connected_to hanging_up)
            = (Ret (ConnNil, Some err), w')
            ∧ code_of err = Some codeBackendDown.
Proof.
  destruct (sslOverlay_short_read (H := env) 0%nat (mkTCP hanging_up [] 0) 0%nat
              (connected_to hanging_up) eq_refl eq_refl eq_refl)
    as (err & w' & E & -> & _).
  eexists _, w'. exact (conj E eq_refl).
Defined.

Lemma sslOverlay_refusal_witness :
  ∃ err w', @sslOverlay env (ConnTCP 0) (Some 0%nat) (connected_to refusing)
            = (Ret (ConnNil, Some err), w')
            ∧ code_of err = Some codeBackendRefusedTLS
            ∧ tlss w' = [].
Proof.
  assert (Hb : (78 : Z) ≠ @pgAcceptSSLRequest env) by (vm_compute; discriminate).
  destruct (sslOverlay_refusal (H := env) 0%nat (mkTCP refusing [] 0) 0%nat
              (connected_to refusing) 78 [] eq_refl eq_refl eq_refl Hb)
    as (err & w' & t' & E & -> & Ht & _).
  eexists _, w'. exact (conj E (conj eq_refl Ht)).
Defined.

Lemma sslOverlay_accept_witness :
  ∃ w', @sslOverlay env (ConnTCP 0) (Some 0%nat) (connected_to accepting)
        = (Ret (ConnTLS 0, None), w')
        ∧ configs w' = [7%nat; 7%nat].
Proof.
  destruct (sslOverlay_accept (H := env) 0%nat (mkTCP accepting [] 0) 0%nat 7%nat
              (connected_to accepting) [] eq_refl eq_refl eq_refl eq_refl)
    as (w' & E & _ & Hc & _).
  exists w'. exact (conj E Hc).
Defined.
